(** * Dual quaternions of spatialmath: a shallow embedding

    The development follows [spatialmath/DualQuaternion.py].  Python floats
    are idealised as real numbers, so an equality "within floating tolerance"
    is an exact equality here.  Exceptions are explicit: every method returns
    a [result], either a value or the exception it raises.  Where rounding
    decides which way the program goes, the same operations are evaluated
    over binary64 in the module [Binary64]. *)

From Stdlib Require Import Floats.
From Stdlib Require Import Reals Lra Lia List Bool Sorted.
Import ListNotations.
Open Scope R_scope.

(** ** Exceptions *)

Inductive exn : Type :=
| AssertionError
| AttributeError
| ValueError.

Inductive result (A : Type) : Type :=
| Ok (a : A)
| Raise (e : exn).

Arguments Ok {A} a.
Arguments Raise {A} e.

Definition bind {A B : Type} (m : result A) (k : A -> result B) : result B :=
  match m with
  | Ok a => k a
  | Raise e => Raise e
  end.

Notation "x <- m ;; k" := (bind m (fun x => k))
  (at level 61, m at next level, right associativity).

(** [assert c] of Python. *)
Definition assert (c : bool) : result unit :=
  if c then Ok tt else Raise AssertionError.

Definition is_not_None {A : Type} (o : option A) : bool :=
  match o with
  | Some _ => true
  | None => false
  end.

(** ** Vectors and matrices *)

Definition Vec3 : Type := (R * R * R)%type.
Definition Mat3 : Type := (Vec3 * Vec3 * Vec3)%type.

Definition vadd (a b : Vec3) : Vec3 :=
  let '(a1, a2, a3) := a in
  let '(b1, b2, b3) := b in
  (a1 + b1, a2 + b2, a3 + b3).

Definition vdot (a b : Vec3) : R :=
  let '(a1, a2, a3) := a in
  let '(b1, b2, b3) := b in
  a1 * b1 + a2 * b2 + a3 * b3.

(** [M @ v] for a 3x3 matrix given by its rows. *)
Definition matvec3 (M : Mat3) (v : Vec3) : Vec3 :=
  let '(r1, r2, r3) := M in
  (vdot r1 v, vdot r2 v, vdot r3 v).

(** numpy arrays of floats: a 1-D array is a list, a 2-D array a list of
    rows. *)
Definition dot (u v : list R) : R :=
  fold_right Rplus 0 (map (fun p => fst p * snd p) (combine u v)).

(** [M @ v] *)
Definition matvec (M : list (list R)) (v : list R) : list R :=
  map (fun row => dot row v) M.

(** [np.zeros((n, m))] *)
Definition np_zeros (n m : nat) : list (list R) :=
  repeat (repeat 0 m) n.

(** [np.block([[A, B], [C, D]])] *)
Definition hstack (A B : list (list R)) : list (list R) :=
  map (fun p => fst p ++ snd p) (combine A B).

Definition np_block (A B C D : list (list R)) : list (list R) :=
  hstack A B ++ hstack C D.

(** ** The quaternion collaborator *)

(** Modelled from the spec: the class [Quaternion] (with its subclass
    [UnitQuaternion]) lives in [spatialmath/quaternion.py], which is not part
    of the sources at hand.  The spec fixes its contract: a 4-component value,
    scalar plus 3-vector, under the Hamilton product, with conjugate, scalar
    part [s], vector part [v], the pure-quaternion constructor, the flat
    4-vector [vec] and the 4x4 left-multiplication [matrix]. *)
Record Quaternion : Type := mkQuaternion {
  q_s : R;
  q_x : R;
  q_y : R;
  q_z : R
}.

(** [UnitQuaternion()] : the identity rotation *)
Definition UnitQuaternion_identity : Quaternion := mkQuaternion 1 0 0 0.

(** [q.s] and [q.v] *)
Definition Quaternion_s (q : Quaternion) : R := q_s q.
Definition Quaternion_v (q : Quaternion) : Vec3 := (q_x q, q_y q, q_z q).

(** [q.vec] *)
Definition Quaternion_vec (q : Quaternion) : list R :=
  [q_s q; q_x q; q_y q; q_z q].

(** [Quaternion.Pure(v)] *)
Definition Quaternion_Pure (v : Vec3) : Quaternion :=
  let '(v1, v2, v3) := v in mkQuaternion 0 v1 v2 v3.

(** [q.conj()] *)
Definition Quaternion_conj (q : Quaternion) : Quaternion :=
  mkQuaternion (q_s q) (- q_x q) (- q_y q) (- q_z q).

(** [p + q], [p - q] *)
Definition Quaternion_add (p q : Quaternion) : Quaternion :=
  mkQuaternion (q_s p + q_s q) (q_x p + q_x q) (q_y p + q_y q) (q_z p + q_z q).

Definition Quaternion_sub (p q : Quaternion) : Quaternion :=
  mkQuaternion (q_s p - q_s q) (q_x p - q_x q) (q_y p - q_y q) (q_z p - q_z q).

(** [p * q] : the Hamilton product *)
Definition Quaternion_mul (p q : Quaternion) : Quaternion :=
  mkQuaternion
    (q_s p * q_s q - q_x p * q_x q - q_y p * q_y q - q_z p * q_z q)
    (q_s p * q_x q + q_x p * q_s q + q_y p * q_z q - q_z p * q_y q)
    (q_s p * q_y q - q_x p * q_z q + q_y p * q_s q + q_z p * q_x q)
    (q_s p * q_z q + q_x p * q_y q - q_y p * q_x q + q_z p * q_s q).

(** [k * q] for a scalar [k] *)
Definition Quaternion_smul (k : R) (q : Quaternion) : Quaternion :=
  mkQuaternion (k * q_s q) (k * q_x q) (k * q_y q) (k * q_z q).

(** [q.matrix] : the matrix of left multiplication by [q] *)
Definition Quaternion_matrix (q : Quaternion) : list (list R) :=
  [ [q_s q; - q_x q; - q_y q; - q_z q];
    [q_x q;   q_s q; - q_z q;   q_y q];
    [q_y q;   q_z q;   q_s q; - q_x q];
    [q_z q; - q_y q;   q_x q;   q_s q] ].

(** [Quaternion(v)] from a sequence: four components are required. *)
Definition Quaternion_of_list (l : list R) : result Quaternion :=
  match l with
  | [a; b; c; d] => Ok (mkQuaternion a b c d)
  | _ => Raise ValueError
  end.

(** Squared length; a unit quaternion has squared length one. *)
Definition Quaternion_norm2 (q : Quaternion) : R :=
  q_s q * q_s q + q_x q * q_x q + q_y q * q_y q + q_z q * q_z q.

Definition is_unit (q : Quaternion) : Prop := Quaternion_norm2 q = 1.

(** Modelled from the spec: [base.q2r], the rotation matrix of a quaternion
    ("toRotationMatrix"), is in [spatialmath/base/quaternions.py], not at
    hand; this is the usual matrix of the rotation [v |-> q v q*] of a unit
    quaternion. *)
Definition q2r (q : Quaternion) : Mat3 :=
  let s := q_s q in
  let x := q_x q in
  let y := q_y q in
  let z := q_z q in
  ( (1 - 2 * (y * y + z * z), 2 * (x * y - s * z), 2 * (x * z + s * y)),
    (2 * (x * y + s * z), 1 - 2 * (x * x + z * z), 2 * (y * z - s * x)),
    (2 * (x * z - s * y), 2 * (y * z + s * x), 1 - 2 * (x * x + y * y)) ).

(** Modelled from the spec: the SE(3) pose collaborator, "pose with
    accessible rotation matrix R, translation vector t, constructible from
    (R, t)"; [pose3d.SE3(base.rt2tr(R, t))] is the pose with these parts. *)
Record SE3 : Type := mkSE3 {
  SE3_R : Mat3;
  SE3_t : Vec3
}.

Definition rt2tr (Rm : Mat3) (t : Vec3) : SE3 := mkSE3 Rm t.

(** ** Python values reaching the constructors and [__mul__] *)

Inductive pyobj : Type :=
| PyNone
| PyQuaternion (q : Quaternion)    (* a Quaternion or UnitQuaternion *)
| PyVector (v : list R)            (* list, tuple or 1-D array of scalars *)
| PySE3 (T : SE3)
| PyOther.                         (* any other object that is no array *)

(** [base.isvector(v, dim)] on these values.  The library's test also
    accepts 2-D arrays of shape [(1, dim)] and [(dim, 1)]; such arrays are
    not among the modelled values, and [PyOther] does not stand for them. *)
Definition isvector (o : pyobj) (dim : nat) : bool :=
  match o with
  | PyVector v => Nat.eqb (length v) dim
  | _ => false
  end.

(** [base.sqrt(v)] of [base/symbolic.py] on a float: [math.sqrt], which
    raises [ValueError] below zero.  Over the reals a scalar part that is
    zero by algebra is zero; in binary64 it can round below zero, see
    [Binary64.base_sqrt]. *)
Definition base_sqrt (v : R) : result R :=
  if Rlt_dec v 0 then Raise ValueError else Ok (sqrt v).

(** ** class DualQuaternion *)

Inductive Class : Type :=
| ClsDualQuaternion
| ClsUnitDualQuaternion.

(** An instance: its class and the attributes [real] and [dual], each a
    quaternion or [None]. *)
Record DualQuaternion : Type := mkDualQuaternion {
  klass : Class;
  real : option Quaternion;
  dual : option Quaternion
}.

(** [isinstance(d, UnitDualQuaternion)] *)
Definition isinstance_UnitDualQuaternion (d : DualQuaternion) : bool :=
  match klass d with
  | ClsUnitDualQuaternion => true
  | ClsDualQuaternion => false
  end.

Definition is_None (o : pyobj) : bool :=
  match o with
  | PyNone => true
  | _ => false
  end.

(** [x[i:j]] *)
Definition slice (l : list R) (i j : nat) : list R :=
  firstn (j - i) (skipn i l).

(** [DualQuaternion.__init__(self, real, dual)], run on a fresh instance of
    class [k]. *)
Definition DualQuaternion_init (k : Class) (real dual : pyobj)
  : result DualQuaternion :=
  if is_None real && is_None dual then
    Ok (mkDualQuaternion k None None)
  else if is_None dual && isvector real 8 then
    match real with
    | PyVector v =>
        r <- Quaternion_of_list (slice v 0 4) ;;
        d <- Quaternion_of_list (slice v 4 8) ;;
        Ok (mkDualQuaternion k (Some r) (Some d))
    | _ => Raise ValueError
    end
  else if negb (is_None real) && negb (is_None dual) then
    match real with
    | PyQuaternion r =>
        match dual with
        | PyQuaternion d => Ok (mkDualQuaternion k (Some r) (Some d))
        | _ => Raise ValueError
        end
    | _ => Raise ValueError
    end
  else Raise ValueError.

(** [DualQuaternion(real, dual)] *)
Definition DualQuaternion_new (real dual : pyobj) : result DualQuaternion :=
  DualQuaternion_init ClsDualQuaternion real dual.

Section UnitQuaternionOfRotation.

(** [UnitQuaternion(R)], the unit quaternion of a rotation matrix, is computed
    by [base.r2q], which is not at hand: it is a parameter. *)
Variable r2q : Mat3 -> Quaternion.

(** [UnitDualQuaternion.__init__(self, real, dual)] on a fresh instance *)
Definition UnitDualQuaternion_init (real dual : pyobj)
  : result DualQuaternion :=
  match dual, real with
  | PyNone, PySE3 T =>
      let S := r2q (SE3_R T) in
      let D := Quaternion_Pure (SE3_t T) in
      DualQuaternion_init ClsUnitDualQuaternion
        (PyQuaternion S)
        (PyQuaternion (Quaternion_mul (Quaternion_smul (1 / 2) D) S))
  | _, _ => DualQuaternion_init ClsUnitDualQuaternion real dual
  end.

End UnitQuaternionOfRotation.

(** [UnitDualQuaternion(real, dual)] on two quaternions needs no [r2q]. *)
Definition UnitDualQuaternion_new (real dual : Quaternion)
  : result DualQuaternion :=
  DualQuaternion_init ClsUnitDualQuaternion
    (PyQuaternion real) (PyQuaternion dual).

(** [base.getvector(x, 3)] *)
Definition getvector3 (x : pyobj) : result Vec3 :=
  match x with
  | PyVector [a; b; c] => Ok (a, b, c)
  | _ => Raise ValueError
  end.

(** [DualQuaternion.Pure(cls, x)]; for both classes [cls(p, q)] on two
    quaternions comes down to [DualQuaternion.__init__]. *)
Definition DualQuaternion_Pure (cls : Class) (x : pyobj)
  : result DualQuaternion :=
  v <- getvector3 x ;;
  DualQuaternion_init cls
    (PyQuaternion UnitQuaternion_identity)
    (PyQuaternion (Quaternion_Pure v)).

(** Attribute access [o.real], [o.dual] followed by a method call: on [None]
    the lookup of the method raises [AttributeError]. *)
Definition deref (o : option Quaternion) : result Quaternion :=
  match o with
  | Some q => Ok q
  | None => Raise AttributeError
  end.

(** [DualQuaternion.norm(self)] *)
Definition DualQuaternion_norm (self : DualQuaternion) : result (R * R) :=
  r <- deref (real self) ;;
  let a := Quaternion_mul r (Quaternion_conj r) in
  d <- deref (dual self) ;;
  let b := Quaternion_add (Quaternion_mul r (Quaternion_conj d))
                          (Quaternion_mul d (Quaternion_conj r)) in
  n0 <- base_sqrt (Quaternion_s a) ;;
  n1 <- base_sqrt (Quaternion_s b) ;;
  Ok (n0, n1).

(** [DualQuaternion.conj(self)] *)
Definition DualQuaternion_conj (self : DualQuaternion)
  : result DualQuaternion :=
  r <- deref (real self) ;;
  d <- deref (dual self) ;;
  DualQuaternion_new (PyQuaternion (Quaternion_conj r))
                     (PyQuaternion (Quaternion_conj d)).

(** The assertion opening [__add__], [__sub__], [matrix] and [vec]:
    [assert x.real is not None and x.dual is not None]. *)
Definition assert_initialized (x : DualQuaternion) : result unit :=
  assert (is_not_None (real x) && is_not_None (dual x)).

(** After a passed assertion the attributes are quaternions. *)
Definition attr (o : option Quaternion) : result Quaternion := deref o.

(** [DualQuaternion.__add__(self, right)] *)
Definition DualQuaternion_add (self right : DualQuaternion)
  : result DualQuaternion :=
  _ <- assert_initialized self ;;
  _ <- assert_initialized right ;;
  r1 <- attr (real self) ;; r2 <- attr (real right) ;;
  d1 <- attr (dual self) ;; d2 <- attr (dual right) ;;
  DualQuaternion_new (PyQuaternion (Quaternion_add r1 r2))
                     (PyQuaternion (Quaternion_add d1 d2)).

(** [DualQuaternion.__sub__(self, right)] *)
Definition DualQuaternion_sub (self right : DualQuaternion)
  : result DualQuaternion :=
  _ <- assert_initialized self ;;
  _ <- assert_initialized right ;;
  r1 <- attr (real self) ;; r2 <- attr (real right) ;;
  d1 <- attr (dual self) ;; d2 <- attr (dual right) ;;
  DualQuaternion_new (PyQuaternion (Quaternion_sub r1 r2))
                     (PyQuaternion (Quaternion_sub d1 d2)).

(** The right operand of [*]: a dual quaternion, a numpy array or a list
    (or tuple) of scalars. *)
Inductive operand : Type :=
| OpDualQuaternion (d : DualQuaternion)
| OpArray (v : list R)
| OpSequence (v : list R).

(** [right.real is not None]: an array has an attribute [real] (itself an
    array), a list has none. *)
Definition right_real_is_not_None (right : operand) : result bool :=
  match right with
  | OpDualQuaternion d => Ok (is_not_None (real d))
  | OpArray _ => Ok true
  | OpSequence _ => Raise AttributeError
  end.

(** [right.dual is not None]: neither an array nor a list has an attribute
    [dual]. *)
Definition right_dual_is_not_None (right : operand) : result bool :=
  match right with
  | OpDualQuaternion d => Ok (is_not_None (dual d))
  | OpArray _ => Raise AttributeError
  | OpSequence _ => Raise AttributeError
  end.

(** The two assertions opening [__mul__]; [and] evaluates its right side
    only when the left side holds. *)
Definition mul_asserts (self : DualQuaternion) (right : operand)
  : result unit :=
  _ <- assert_initialized self ;;
  c1 <- right_real_is_not_None right ;;
  c2 <- (if c1 then right_dual_is_not_None right else Ok false) ;;
  assert c2.

(** The branch [isinstance(right, DualQuaternion)] of [__mul__], with the
    Hamilton product for every product of quaternions.  When both real parts
    are [UnitQuaternion] instances the library returns their product with a
    non-negative scalar part: that case is [mul_product_unit_real]. *)
Definition mul_product (self right : DualQuaternion)
  : result DualQuaternion :=
  r1 <- attr (real self) ;; r2 <- attr (real right) ;;
  d1 <- attr (dual self) ;; d2 <- attr (dual right) ;;
  let real' := Quaternion_mul r1 r2 in
  let dual' := Quaternion_add (Quaternion_mul r1 d2) (Quaternion_mul d1 r2) in
  if isinstance_UnitDualQuaternion self && isinstance_UnitDualQuaternion self
  then UnitDualQuaternion_new real' dual'
  else DualQuaternion_new (PyQuaternion real') (PyQuaternion dual').

(** [self * right] for [right] a dual quaternion, as the point transform
    calls it. *)
Definition times (self right : DualQuaternion) : result DualQuaternion :=
  _ <- mul_asserts self (OpDualQuaternion right) ;;
  mul_product self right.

(** The body of the branch [elif ... base.isvector(right, 3)] of [__mul__]:
    [vp = self * DualQuaternion.Pure(v) * self.conj()], [vp.dual.v]. *)
Definition mul_point (self : DualQuaternion) (v : list R) : result Vec3 :=
  p <- DualQuaternion_Pure ClsDualQuaternion (PyVector v) ;;
  sp <- times self p ;;
  c <- DualQuaternion_conj self ;;
  vp <- times sp c ;;
  d <- deref (dual vp) ;;
  Ok (Quaternion_v d).

(** What [__mul__] returns: a dual quaternion, a 3-vector, or [None] when
    no branch is taken. *)
Inductive product : Type :=
| RetDualQuaternion (d : DualQuaternion)
| RetVector (v : Vec3)
| RetNone.

Definition operand_isvector (right : operand) (dim : nat) : bool :=
  match right with
  | OpDualQuaternion _ => false
  | OpArray v => Nat.eqb (length v) dim
  | OpSequence v => Nat.eqb (length v) dim
  end.

(** [DualQuaternion.__mul__(self, right)] *)
Definition DualQuaternion_mul (self : DualQuaternion) (right : operand)
  : result product :=
  _ <- mul_asserts self right ;;
  match right with
  | OpDualQuaternion r =>
      p <- mul_product self r ;; Ok (RetDualQuaternion p)
  | OpArray v | OpSequence v =>
      if isinstance_UnitDualQuaternion self && operand_isvector right 3
      then vp <- mul_point self v ;; Ok (RetVector vp)
      else Ok RetNone
  end.

(** [DualQuaternion.matrix(self)] *)
Definition DualQuaternion_matrix (self : DualQuaternion)
  : result (list (list R)) :=
  _ <- assert_initialized self ;;
  r <- attr (real self) ;;
  d <- attr (dual self) ;;
  Ok (np_block (Quaternion_matrix r) (np_zeros 4 4)
               (Quaternion_matrix d) (Quaternion_matrix r)).

(** [DualQuaternion.vec] *)
Definition DualQuaternion_vec (self : DualQuaternion) : result (list R) :=
  _ <- assert_initialized self ;;
  r <- attr (real self) ;;
  d <- attr (dual self) ;;
  Ok (Quaternion_vec r ++ Quaternion_vec d).

(** [UnitDualQuaternion.SE3(self)] *)
Definition UnitDualQuaternion_SE3 (self : DualQuaternion) : result SE3 :=
  r <- deref (real self) ;;
  let Rm := q2r r in
  d <- deref (dual self) ;;
  let t := Quaternion_mul (Quaternion_smul 2 d) (Quaternion_conj r) in
  Ok (rt2tr Rm (Quaternion_v t)).

(** ** The rigid-motion invariant *)

(** [dual = 1/2 * Pure(t) * real] *)
Definition dual_of_translation (t : Vec3) (r : Quaternion) : Quaternion :=
  Quaternion_mul (Quaternion_smul (1 / 2) (Quaternion_Pure t)) r.

(** A unit dual quaternion stands for a rigid motion: [real] is a unit
    quaternion and [dual = 1/2 * Pure(t) * real] for a translation [t]. *)
Definition rigid_motion (d : DualQuaternion) : Prop :=
  exists r t,
    real d = Some r /\ is_unit r /\ dual d = Some (dual_of_translation t r).

(** The sentinel-empty instance of a class. *)
Definition empty (k : Class) : DualQuaternion := mkDualQuaternion k None None.

(** [isinstance(o, Quaternion)] *)
Definition isinstance_Quaternion (o : pyobj) : bool :=
  match o with
  | PyQuaternion _ => true
  | _ => false
  end.

Definition I3 : Mat3 := ((1, 0, 0), (0, 1, 0), (0, 0, 1)).

Definition vscale (k : R) (a : Vec3) : Vec3 :=
  let '(a1, a2, a3) := a in (k * a1, k * a2, k * a3).

(** The action of a quaternion on a vector: the vector part of
    [r * Pure(v) * conj r]. *)
Definition rotate (r : Quaternion) (v : Vec3) : Vec3 :=
  Quaternion_v
    (Quaternion_mul (Quaternion_mul r (Quaternion_Pure v)) (Quaternion_conj r)).

(** ** The interpolating SE(3) spline *)

(** Modelled from the spec: [InterpSplineSE3] is in [spatialmath/spline.py],
    which is not at hand; [tests/test_spline.py] builds it from time points
    and waypoints and reads [timepoints] and [control_poses].  The spec: it
    holds strictly increasing time points and as many waypoint poses, two at
    least; with [normalize_time] the time points are rescaled to span [0, 1]
    (shift so the first is 0, divide by last minus first); the translation is
    interpolated by a cubic spline through the translation components, one
    per axis, the rotation by quaternion-based shortest-path (geodesic,
    slerp) interpolation between consecutive waypoints. *)
Record InterpSplineSE3 : Type := mkInterpSplineSE3 {
  timepoints : list R;
  control_poses : list SE3
}.

Fixpoint increasing (ts : list R) : bool :=
  match ts with
  | [] => true
  | t0 :: ts' =>
      match ts' with
      | [] => true
      | t1 :: _ => if Rlt_dec t0 t1 then increasing ts' else false
      end
  end.

Definition normalize (ts : list R) : list R :=
  let first := hd 0 ts in
  let span := last ts 0 - first in
  map (fun t => (t - first) / span) ts.

(** Modelled from the spec: the constructor; ill-matched lengths, fewer than
    two points and time points that do not increase are construction
    errors. *)
Definition InterpSplineSE3_init (times : list R) (waypoints : list SE3)
           (normalize_time : bool) : result InterpSplineSE3 :=
  if negb (Nat.eqb (length times) (length waypoints)) then Raise ValueError
  else if Nat.ltb (length times) 2 then Raise ValueError
  else if negb (increasing times) then Raise ValueError
  else Ok (mkInterpSplineSE3
             (if normalize_time then normalize times else times) waypoints).

(** Modelled from the spec: one segment of a cubic spline through [p0] at
    parameter 0 and [p1] at parameter 1, in Hermite form; [h] is the length
    of the interval and [m0], [m1] the slopes at its ends. *)
Definition hermite (s h p0 m0 p1 m1 : R) : R :=
  (2 * s * s * s - 3 * s * s + 1) * p0
  + (s * s * s - 2 * s * s + s) * h * m0
  + (- 2 * s * s * s + 3 * s * s) * p1
  + (s * s * s - s * s) * h * m1.

Definition hermite3 (s h : R) (p0 m0 p1 m1 : Vec3) : Vec3 :=
  let '(p0x, p0y, p0z) := p0 in
  let '(m0x, m0y, m0z) := m0 in
  let '(p1x, p1y, p1z) := p1 in
  let '(m1x, m1y, m1z) := m1 in
  (hermite s h p0x m0x p1x m1x,
   hermite s h p0y m0y p1y m1y,
   hermite s h p0z m0z p1z m1z).

Definition Quaternion_dot (p q : Quaternion) : R :=
  q_s p * q_s q + q_x p * q_x q + q_y p * q_y q + q_z p * q_z q.

(** Modelled from the spec: shortest-path interpolation between two unit
    quaternions; the second is negated when the angle between them is
    obtuse, and the blend is linear when the angle has no sine to divide
    by. *)
Definition slerp (q0 q1 : Quaternion) (s : R) : Quaternion :=
  let c := Quaternion_dot q0 q1 in
  let q1' := if Rlt_dec c 0 then Quaternion_smul (-1) q1 else q1 in
  let om := acos (Rabs c) in
  if Req_dec_T (sin om) 0
  then Quaternion_add (Quaternion_smul (1 - s) q0) (Quaternion_smul s q1')
  else Quaternion_add (Quaternion_smul (sin ((1 - s) * om) / sin om) q0)
                      (Quaternion_smul (sin (s * om) / sin om) q1').

Definition vsub (a b : Vec3) : Vec3 :=
  let '(a1, a2, a3) := a in
  let '(b1, b2, b3) := b in
  (a1 - b1, a2 - b2, a3 - b3).

(** [np.linalg.norm(v)] *)
Definition vnorm (a : Vec3) : R := sqrt (vdot a a).

Section SplineEvaluation.

(** [r2q] as above; [slope i] is the slope of the translation spline at the
    [i]-th time point, fixed by the end conditions, which the spec leaves
    open. *)
Variable r2q : Mat3 -> Quaternion.
Variable slope : nat -> Vec3.

(** The pose on the segment from [(t0, w0)] to [(t1, w1)], the [i]-th. *)
Definition segment (i : nat) (t0 t1 : R) (w0 w1 : SE3) (t : R) : SE3 :=
  let h := t1 - t0 in
  let s := (t - t0) / h in
  mkSE3 (q2r (slerp (r2q (SE3_R w0)) (r2q (SE3_R w1)) s))
        (hermite3 s h (SE3_t w0) (slope i) (SE3_t w1) (slope (S i))).

(** The segment of [t] is the first one that does not end before [t]; the
    last segment serves every later [t]. *)
Fixpoint evaluate_from (i : nat) (ts : list R) (ws : list SE3) (t : R)
  {struct ts} : result SE3 :=
  match ts, ws with
  | t0 :: ts', w0 :: ws' =>
      match ts', ws' with
      | t1 :: ts'', w1 :: _ =>
          match ts'' with
          | [] => Ok (segment i t0 t1 w0 w1 t)
          | _ :: _ =>
              if Rle_dec t t1 then Ok (segment i t0 t1 w0 w1 t)
              else evaluate_from (S i) ts' ws' t
          end
      | _, _ => Raise ValueError
      end
  | _, _ => Raise ValueError
  end.

(** Modelled from the spec: [evaluate(t)], the call [spline(t)]. *)
Definition InterpSplineSE3_evaluate (sp : InterpSplineSE3) (t : R)
  : result SE3 :=
  evaluate_from 0 (timepoints sp) (control_poses sp) t.

End SplineEvaluation.

(** The contract of [UnitQuaternion(R)] at the rotation of a pose. *)
Definition r2q_contract (r2q : Mat3 -> Quaternion) (w : SE3) : Prop :=
  is_unit (r2q (SE3_R w)) /\ q2r (r2q (SE3_R w)) = SE3_R w.

(** ** Further operations of the file and of its collaborators *)

(** 3x3 matrices: product and transpose. *)
Definition matmul3 (A B : Mat3) : Mat3 :=
  let '(a1, a2, a3) := A in
  let '((b11, b12, b13), (b21, b22, b23), (b31, b32, b33)) := B in
  let c1 := (b11, b21, b31) in
  let c2 := (b12, b22, b32) in
  let c3 := (b13, b23, b33) in
  ( (vdot a1 c1, vdot a1 c2, vdot a1 c3),
    (vdot a2 c1, vdot a2 c2, vdot a2 c3),
    (vdot a3 c1, vdot a3 c2, vdot a3 c3) ).

Definition transpose3 (A : Mat3) : Mat3 :=
  let '((a11, a12, a13), (a21, a22, a23), (a31, a32, a33)) := A in
  ((a11, a21, a31), (a12, a22, a32), (a13, a23, a33)).

(** Modelled from the spec: composition and inverse of the SE(3) pose
    collaborator, [T1 * T2] and [T.inv()]: the rigid motion [v |-> R v + t]
    composed, and undone. *)
Definition SE3_mul (T1 T2 : SE3) : SE3 :=
  mkSE3 (matmul3 (SE3_R T1) (SE3_R T2))
        (vadd (matvec3 (SE3_R T1) (SE3_t T2)) (SE3_t T1)).

Definition SE3_inv (T : SE3) : SE3 :=
  mkSE3 (transpose3 (SE3_R T))
        (vscale (-1) (matvec3 (transpose3 (SE3_R T)) (SE3_t T))).

(** The scalar part that [norm] takes the second root of. *)
Definition dual_scalar (r d : Quaternion) : R :=
  Quaternion_s
    (Quaternion_add (Quaternion_mul r (Quaternion_conj d))
                    (Quaternion_mul d (Quaternion_conj r))).

(** ** Products of [UnitQuaternion] instances *)

(** The product of two [UnitQuaternion] instances.  [quaternion.py] is not
    at hand; a [UnitQuaternion] is kept with a non-negative scalar part, so
    the product of two of them is the Hamilton product, negated when its
    scalar part is negative.  A product with a plain [Quaternion] on either
    side is the Hamilton product, [Quaternion_mul]. *)
Definition UnitQuaternion_mul (p q : Quaternion) : Quaternion :=
  let h := Quaternion_mul p q in
  if Rlt_dec (q_s h) 0 then Quaternion_smul (-1) h else h.

(** The branch [isinstance(right, DualQuaternion)] of [__mul__] on two dual
    quaternions whose real parts are both [UnitQuaternion] instances, as the
    real part of [UnitDualQuaternion(T)] is: [self.real * right.real] is a
    product of two [UnitQuaternion]s, the two products with a dual part are
    products with a plain [Quaternion]. *)
Definition mul_product_unit_real (self right : DualQuaternion)
  : result DualQuaternion :=
  r1 <- attr (real self) ;; r2 <- attr (real right) ;;
  d1 <- attr (dual self) ;; d2 <- attr (dual right) ;;
  let real' := UnitQuaternion_mul r1 r2 in
  let dual' := Quaternion_add (Quaternion_mul r1 d2) (Quaternion_mul d1 r2) in
  if isinstance_UnitDualQuaternion self && isinstance_UnitDualQuaternion self
  then UnitDualQuaternion_new real' dual'
  else DualQuaternion_new (PyQuaternion real') (PyQuaternion dual').

(** [self * right] for such operands. *)
Definition times_unit_real (self right : DualQuaternion)
  : result DualQuaternion :=
  _ <- mul_asserts self (OpDualQuaternion right) ;;
  mul_product_unit_real self right.

(** The pose with the half turn about the x axis and the translation
    [(1, 0, 0)], the unit quaternion of its rotation, and its unit dual
    quaternion. *)
Definition half_turn_x : Quaternion := mkQuaternion 0 1 0 0.

Definition half_turn_pose : SE3 :=
  mkSE3 ((1, 0, 0), (0, -1, 0), (0, 0, -1)) (1, 0, 0).

Definition half_turn_dq : DualQuaternion :=
  mkDualQuaternion ClsUnitDualQuaternion (Some half_turn_x)
    (Some (dual_of_translation (1, 0, 0) half_turn_x)).

(** ** The same operations over binary64 *)

Module Binary64.

Local Open Scope float_scope.

(** A quaternion of Python floats, and the operations above on it, each
    with the arithmetic of [float]. *)
Record Quaternion : Type := mkQuaternion {
  q_s : float;
  q_x : float;
  q_y : float;
  q_z : float
}.

Definition Quaternion_Pure (v : float * float * float) : Quaternion :=
  let '(v1, v2, v3) := v in mkQuaternion 0 v1 v2 v3.

Definition Quaternion_conj (q : Quaternion) : Quaternion :=
  mkQuaternion (q_s q) (- q_x q) (- q_y q) (- q_z q).

Definition Quaternion_add (p q : Quaternion) : Quaternion :=
  mkQuaternion (q_s p + q_s q) (q_x p + q_x q) (q_y p + q_y q) (q_z p + q_z q).

Definition Quaternion_mul (p q : Quaternion) : Quaternion :=
  mkQuaternion
    (q_s p * q_s q - q_x p * q_x q - q_y p * q_y q - q_z p * q_z q)
    (q_s p * q_x q + q_x p * q_s q + q_y p * q_z q - q_z p * q_y q)
    (q_s p * q_y q - q_x p * q_z q + q_y p * q_s q + q_z p * q_x q)
    (q_s p * q_z q + q_x p * q_y q - q_y p * q_x q + q_z p * q_s q).

Definition Quaternion_smul (k : float) (q : Quaternion) : Quaternion :=
  mkQuaternion (k * q_s q) (k * q_x q) (k * q_y q) (k * q_z q).

(** [base.sqrt(v)]: [math.sqrt] raises [ValueError] below zero. *)
Definition base_sqrt (v : float) : result float :=
  if PrimFloat.ltb v 0 then Raise ValueError else Ok (PrimFloat.sqrt v).

(** The dual part [0.5 * D * S] that [UnitDualQuaternion.__init__] builds
    from the translation [t] and the real part [S]. *)
Definition dual_of_translation (t : float * float * float) (S : Quaternion)
  : Quaternion :=
  Quaternion_mul (Quaternion_smul 0.5 (Quaternion_Pure t)) S.

(** [DualQuaternion.norm(self)] on the parts [real] and [dual]. *)
Definition norm (real dual : Quaternion) : result (float * float) :=
  let a := Quaternion_mul real (Quaternion_conj real) in
  let b := Quaternion_add (Quaternion_mul real (Quaternion_conj dual))
                          (Quaternion_mul dual (Quaternion_conj real)) in
  n0 <- base_sqrt (q_s a) ;;
  n1 <- base_sqrt (q_s b) ;;
  Ok (n0, n1).

(** The product of two [UnitQuaternion] instances, and the parts of the
    product of two dual quaternions with such real parts. *)
Definition UnitQuaternion_mul (p q : Quaternion) : Quaternion :=
  let h := Quaternion_mul p q in
  if PrimFloat.ltb (q_s h) 0 then Quaternion_smul (-1) h else h.

Definition product (a b : Quaternion * Quaternion)
  : Quaternion * Quaternion :=
  let '(r1, d1) := a in
  let '(r2, d2) := b in
  (UnitQuaternion_mul r1 r2,
   Quaternion_add (Quaternion_mul r1 d2) (Quaternion_mul d1 r2)).

End Binary64.

(** * Properties *)

(** ** Quaternion algebra *)

Ltac quat_unfold :=
  unfold rotate, dual_of_translation in *;
  unfold Quaternion_mul, Quaternion_add, Quaternion_sub,
    Quaternion_smul, Quaternion_conj, Quaternion_Pure, Quaternion_norm2,
    Quaternion_s, Quaternion_v, UnitQuaternion_identity, vadd,
    vscale, matvec3, vdot, q2r in *;
  simpl in *.

Ltac quat_ring := intros; quat_unfold; f_equal; field.

Lemma Quaternion_mul_assoc (p q r : Quaternion) :
  Quaternion_mul (Quaternion_mul p q) r = Quaternion_mul p (Quaternion_mul q r).
Proof. quat_ring. Qed.

Lemma Quaternion_conj_conj (q : Quaternion) :
  Quaternion_conj (Quaternion_conj q) = q.
Proof. destruct q; quat_ring. Qed.

Lemma Quaternion_conj_mul (p q : Quaternion) :
  Quaternion_conj (Quaternion_mul p q)
  = Quaternion_mul (Quaternion_conj q) (Quaternion_conj p).
Proof. quat_ring. Qed.

Lemma Quaternion_norm2_mul (p q : Quaternion) :
  Quaternion_norm2 (Quaternion_mul p q)
  = Quaternion_norm2 p * Quaternion_norm2 q.
Proof. intros; quat_unfold; ring. Qed.

Lemma Quaternion_norm2_nonneg (q : Quaternion) : 0 <= Quaternion_norm2 q.
Proof.
  unfold Quaternion_norm2.
  pose proof (Rle_0_sqr (q_s q)) as Hs. pose proof (Rle_0_sqr (q_x q)) as Hx.
  pose proof (Rle_0_sqr (q_y q)) as Hy. pose proof (Rle_0_sqr (q_z q)) as Hz.
  unfold Rsqr in *. lra.
Qed.

(** The scalar part of [q * conj q] is the squared length. *)
Lemma Quaternion_mul_conj_s (q : Quaternion) :
  Quaternion_s (Quaternion_mul q (Quaternion_conj q)) = Quaternion_norm2 q.
Proof. quat_unfold; ring. Qed.

(** Undoing the translation: [2 * (1/2 * Pure(t) * r) * conj r] is
    [|r|^2 * Pure(t)]. *)
Lemma translation_recovered (t : Vec3) (r : Quaternion) :
  Quaternion_mul (Quaternion_smul 2 (dual_of_translation t r))
                 (Quaternion_conj r)
  = Quaternion_smul (Quaternion_norm2 r) (Quaternion_Pure t).
Proof. destruct t as [[t1 t2] t3]. quat_ring. Qed.

Lemma Quaternion_v_smul_Pure (k : R) (t : Vec3) :
  k = 1 -> Quaternion_v (Quaternion_smul k (Quaternion_Pure t)) = t.
Proof.
  intros ->. destruct t as [[t1 t2] t3]. quat_unfold.
  rewrite !Rmult_1_l. reflexivity.
Qed.

(** The scalar part seen by [norm] vanishes on a rigid motion. *)
Lemma dual_scalar_vanishes (t : Vec3) (r : Quaternion) :
  Quaternion_s
    (Quaternion_add
       (Quaternion_mul r (Quaternion_conj (dual_of_translation t r)))
       (Quaternion_mul (dual_of_translation t r) (Quaternion_conj r))) = 0.
Proof. destruct t as [[t1 t2] t3]. quat_unfold. field. Qed.

(** ** [math.sqrt] *)

Lemma base_sqrt_nonneg (v : R) : 0 <= v -> base_sqrt v = Ok (sqrt v).
Proof.
  intros Hv. unfold base_sqrt. destruct (Rlt_dec v 0) as [Hlt | _].
  - lra.
  - reflexivity.
Qed.

Lemma base_sqrt_neg (v : R) : v < 0 -> base_sqrt v = Raise ValueError.
Proof.
  intros Hv. unfold base_sqrt. destruct (Rlt_dec v 0) as [_ | Hge].
  - reflexivity.
  - contradiction.
Qed.

Lemma base_sqrt_1 : base_sqrt 1 = Ok 1.
Proof. rewrite base_sqrt_nonneg by lra. now rewrite sqrt_1. Qed.

Lemma base_sqrt_0 : base_sqrt 0 = Ok 0.
Proof. rewrite base_sqrt_nonneg by lra. now rewrite sqrt_0. Qed.

(** ** Construction *)

Lemma DualQuaternion_init_pair (k : Class) (r d : Quaternion) :
  DualQuaternion_init k (PyQuaternion r) (PyQuaternion d)
  = Ok (mkDualQuaternion k (Some r) (Some d)).
Proof. reflexivity. Qed.

Lemma UnitDualQuaternion_init_pair (r2q : Mat3 -> Quaternion)
      (r d : Quaternion) :
  UnitDualQuaternion_init r2q (PyQuaternion r) (PyQuaternion d)
  = UnitDualQuaternion_new r d.
Proof. reflexivity. Qed.

Lemma UnitDualQuaternion_init_pose (r2q : Mat3 -> Quaternion) (T : SE3) :
  UnitDualQuaternion_init r2q (PySE3 T) PyNone
  = Ok (mkDualQuaternion ClsUnitDualQuaternion
          (Some (r2q (SE3_R T)))
          (Some (dual_of_translation (SE3_t T) (r2q (SE3_R T))))).
Proof. reflexivity. Qed.

(** C1. SE(3) round trip: [UnitDualQuaternion(T)] has
    [real = UnitQuaternion(R)] and [dual = 1/2 * Pure(t) * real], and its
    [SE3()] is [T] again: the rotation matrix is [R] and the vector part of
    [2 * dual * conj(real)] is [t].  [UnitQuaternion(R)] is the collaborator
    [r2q]; its contract at [R] is that the result is a unit quaternion whose
    rotation matrix is [R]. *)
Theorem SE3_round_trip (r2q : Mat3 -> Quaternion) (T : SE3)
        (Hunit : is_unit (r2q (SE3_R T)))
        (Hrot : q2r (r2q (SE3_R T)) = SE3_R T) :
  exists d,
    UnitDualQuaternion_init r2q (PySE3 T) PyNone = Ok d
    /\ klass d = ClsUnitDualQuaternion
    /\ real d = Some (r2q (SE3_R T))
    /\ dual d = Some (Quaternion_mul
                        (Quaternion_smul (1 / 2) (Quaternion_Pure (SE3_t T)))
                        (r2q (SE3_R T)))
    /\ UnitDualQuaternion_SE3 d = Ok T
    /\ (forall T', UnitDualQuaternion_SE3 d = Ok T' ->
          SE3_R T' = SE3_R T /\ SE3_t T' = SE3_t T).
Proof.
  eexists. split; [apply UnitDualQuaternion_init_pose |].
  assert (Hback :
    UnitDualQuaternion_SE3
      (mkDualQuaternion ClsUnitDualQuaternion (Some (r2q (SE3_R T)))
         (Some (dual_of_translation (SE3_t T) (r2q (SE3_R T))))) = Ok T).
  { unfold UnitDualQuaternion_SE3, rt2tr. cbn [real dual deref bind].
    rewrite translation_recovered, Hrot.
    rewrite Quaternion_v_smul_Pure by exact Hunit.
    now destruct T. }
  repeat split; try reflexivity; try exact Hback.
  - rewrite Hback in H. now inversion H.
  - rewrite Hback in H. now inversion H.
Qed.

Lemma SE3_round_trip_witness :
  let r2q := fun _ : Mat3 => UnitQuaternion_identity in
  let T := mkSE3 I3 (1, 2, 3) in
  is_unit (r2q (SE3_R T)) /\ q2r (r2q (SE3_R T)) = SE3_R T
  /\ exists d,
      UnitDualQuaternion_init r2q (PySE3 T) PyNone = Ok d
      /\ UnitDualQuaternion_SE3 d = Ok T.
Proof.
  intros r2q T.
  assert (Hunit : is_unit (r2q (SE3_R T))).
  { unfold is_unit, r2q. quat_unfold. ring. }
  assert (Hrot : q2r (r2q (SE3_R T)) = SE3_R T).
  { unfold q2r, r2q, T. simpl. unfold I3. repeat f_equal; ring. }
  split; [exact Hunit | split; [exact Hrot |]].
  destruct (SE3_round_trip r2q T Hunit Hrot) as [d [Hd [_ [_ [_ [Hback _]]]]]].
  exists d. split; assumption.
Defined.

(** ** Conjugation *)

Lemma DualQuaternion_conj_pair (k : Class) (p q : Quaternion) :
  DualQuaternion_conj (mkDualQuaternion k (Some p) (Some q))
  = Ok (mkDualQuaternion ClsDualQuaternion
          (Some (Quaternion_conj p)) (Some (Quaternion_conj q))).
Proof. reflexivity. Qed.

(** C9. Conjugation involution: on [d = (p, q)], [conj] returns the new
    dual quaternion [(conj p, conj q)], and conjugating twice restores both
    the real and the dual part. *)
Theorem conj_involution (k : Class) (p q : Quaternion) :
  let d := mkDualQuaternion k (Some p) (Some q) in
  DualQuaternion_conj d
  = Ok (mkDualQuaternion ClsDualQuaternion
          (Some (Quaternion_conj p)) (Some (Quaternion_conj q)))
  /\ exists d'',
      (d' <- DualQuaternion_conj d ;; DualQuaternion_conj d') = Ok d''
      /\ real d'' = real d /\ dual d'' = dual d.
Proof.
  intros d. split; [apply DualQuaternion_conj_pair |].
  exists (mkDualQuaternion ClsDualQuaternion (Some p) (Some q)).
  unfold d. rewrite DualQuaternion_conj_pair. cbn [bind].
  rewrite DualQuaternion_conj_pair, !Quaternion_conj_conj.
  repeat split.
Qed.

(** ** The sentinel-empty state *)

Lemma DualQuaternion_add_pair (k1 k2 : Class) (r1 d1 r2 d2 : Quaternion) :
  DualQuaternion_add (mkDualQuaternion k1 (Some r1) (Some d1))
                     (mkDualQuaternion k2 (Some r2) (Some d2))
  = Ok (mkDualQuaternion ClsDualQuaternion
          (Some (Quaternion_add r1 r2)) (Some (Quaternion_add d1 d2))).
Proof. reflexivity. Qed.

Lemma DualQuaternion_sub_pair (k1 k2 : Class) (r1 d1 r2 d2 : Quaternion) :
  DualQuaternion_sub (mkDualQuaternion k1 (Some r1) (Some d1))
                     (mkDualQuaternion k2 (Some r2) (Some d2))
  = Ok (mkDualQuaternion ClsDualQuaternion
          (Some (Quaternion_sub r1 r2)) (Some (Quaternion_sub d1 d2))).
Proof. reflexivity. Qed.

(** C7. On the sentinel-empty dual quaternion every operation fails rather
    than returning a value: [+], [-], [*], [matrix()] and [vec] fail their
    opening assertion, on either side of a binary operator, and [conj()] and
    [norm()] fail on the attribute lookup on [None], with [AttributeError].
    On initialised operands [+] and [-] return a new [DualQuaternion] with
    the component-wise sum and difference. *)
Theorem empty_state_failures (k k1 k2 : Class) (r1 d1 r2 d2 : Quaternion) :
  let e := empty k in
  let a := mkDualQuaternion k1 (Some r1) (Some d1) in
  let b := mkDualQuaternion k2 (Some r2) (Some d2) in
  (forall x, DualQuaternion_add e x = Raise AssertionError)
  /\ DualQuaternion_add a e = Raise AssertionError
  /\ (forall x, DualQuaternion_sub e x = Raise AssertionError)
  /\ DualQuaternion_sub a e = Raise AssertionError
  /\ (forall x, DualQuaternion_mul e x = Raise AssertionError)
  /\ DualQuaternion_mul a (OpDualQuaternion e) = Raise AssertionError
  /\ DualQuaternion_matrix e = Raise AssertionError
  /\ DualQuaternion_vec e = Raise AssertionError
  /\ DualQuaternion_conj e = Raise AttributeError
  /\ DualQuaternion_norm e = Raise AttributeError
  /\ DualQuaternion_add a b
     = Ok (mkDualQuaternion ClsDualQuaternion
             (Some (Quaternion_add r1 r2)) (Some (Quaternion_add d1 d2)))
  /\ DualQuaternion_sub a b
     = Ok (mkDualQuaternion ClsDualQuaternion
             (Some (Quaternion_sub r1 r2)) (Some (Quaternion_sub d1 d2))).
Proof.
  intros e a b. repeat split; try reflexivity.
Qed.

(** ** Products *)

Lemma mul_product_pair (k1 k2 : Class) (r1 d1 r2 d2 : Quaternion) :
  mul_product (mkDualQuaternion k1 (Some r1) (Some d1))
              (mkDualQuaternion k2 (Some r2) (Some d2))
  = Ok (mkDualQuaternion k1
          (Some (Quaternion_mul r1 r2))
          (Some (Quaternion_add (Quaternion_mul r1 d2)
                                (Quaternion_mul d1 r2)))).
Proof. destruct k1; reflexivity. Qed.

Lemma times_pair (k1 k2 : Class) (r1 d1 r2 d2 : Quaternion) :
  times (mkDualQuaternion k1 (Some r1) (Some d1))
        (mkDualQuaternion k2 (Some r2) (Some d2))
  = Ok (mkDualQuaternion k1
          (Some (Quaternion_mul r1 r2))
          (Some (Quaternion_add (Quaternion_mul r1 d2)
                                (Quaternion_mul d1 r2)))).
Proof.
  unfold times, mul_asserts, assert_initialized. cbn [real dual is_not_None
    andb assert bind right_real_is_not_None right_dual_is_not_None].
  apply mul_product_pair.
Qed.

Lemma DualQuaternion_mul_pair (k1 k2 : Class) (r1 d1 r2 d2 : Quaternion) :
  DualQuaternion_mul (mkDualQuaternion k1 (Some r1) (Some d1))
    (OpDualQuaternion (mkDualQuaternion k2 (Some r2) (Some d2)))
  = Ok (RetDualQuaternion
          (mkDualQuaternion k1
             (Some (Quaternion_mul r1 r2))
             (Some (Quaternion_add (Quaternion_mul r1 d2)
                                   (Quaternion_mul d1 r2))))).
Proof.
  unfold DualQuaternion_mul, mul_asserts, assert_initialized.
  cbn [real dual is_not_None andb assert bind right_real_is_not_None
       right_dual_is_not_None].
  now rewrite mul_product_pair.
Qed.

(** C5. The product branch tags its result by the class of the left operand
    alone: a [UnitDualQuaternion] times a plain [DualQuaternion] is returned
    as a [UnitDualQuaternion], whatever the class of the right operand, and
    the result need not be a rigid motion. *)
Theorem product_tag_follows_left_operand :
  (forall r1 d1 r2 d2,
      DualQuaternion_mul
        (mkDualQuaternion ClsUnitDualQuaternion (Some r1) (Some d1))
        (OpDualQuaternion
           (mkDualQuaternion ClsDualQuaternion (Some r2) (Some d2)))
      = Ok (RetDualQuaternion
              (mkDualQuaternion ClsUnitDualQuaternion
                 (Some (Quaternion_mul r1 r2))
                 (Some (Quaternion_add (Quaternion_mul r1 d2)
                                       (Quaternion_mul d1 r2))))))
  /\ (forall k1 k2 k2' r1 d1 r2 d2,
      exists p p',
        DualQuaternion_mul (mkDualQuaternion k1 (Some r1) (Some d1))
          (OpDualQuaternion (mkDualQuaternion k2 (Some r2) (Some d2)))
        = Ok (RetDualQuaternion p)
        /\ DualQuaternion_mul (mkDualQuaternion k1 (Some r1) (Some d1))
             (OpDualQuaternion (mkDualQuaternion k2' (Some r2) (Some d2)))
           = Ok (RetDualQuaternion p')
        /\ p = p' /\ klass p = k1)
  /\ (exists a b p,
      klass a = ClsUnitDualQuaternion /\ rigid_motion a
      /\ klass b = ClsDualQuaternion
      /\ DualQuaternion_mul a (OpDualQuaternion b) = Ok (RetDualQuaternion p)
      /\ klass p = ClsUnitDualQuaternion
      /\ ~ rigid_motion p).
Proof.
  split; [| split].
  - intros. apply DualQuaternion_mul_pair.
  - intros. do 2 eexists. rewrite !DualQuaternion_mul_pair.
    repeat split.
  - exists (mkDualQuaternion ClsUnitDualQuaternion
              (Some UnitQuaternion_identity)
              (Some (dual_of_translation (0, 0, 0) UnitQuaternion_identity))).
    exists (mkDualQuaternion ClsDualQuaternion
              (Some (mkQuaternion 2 0 0 0)) (Some (mkQuaternion 0 0 0 0))).
    eexists. split; [reflexivity |]. split.
    { exists UnitQuaternion_identity, (0, 0, 0).
      repeat split. unfold is_unit. quat_unfold. ring. }
    split; [reflexivity |]. split; [apply DualQuaternion_mul_pair |].
    split; [reflexivity |].
    intros [r [t [Hr [Hu _]]]]. cbn [real] in Hr. inversion Hr as [Hr'].
    subst r. unfold is_unit in Hu. quat_unfold. lra.
Qed.

(** ** Rigid motions *)

Ltac vec3_ring :=
  apply (f_equal2 (@pair (R * R) R)); [apply (f_equal2 (@pair R R)) |]; ring.

(** [rotate] agrees with the rotation matrix up to the defect of the
    length. *)
Lemma rotate_q2r (r : Quaternion) (v : Vec3) :
  rotate r v
  = vadd (matvec3 (q2r r) v) (vscale (Quaternion_norm2 r - 1) v).
Proof.
  destruct v as [[v1 v2] v3]. quat_unfold. vec3_ring.
Qed.

Lemma rotate_unit (r : Quaternion) (v : Vec3) :
  is_unit r -> rotate r v = matvec3 (q2r r) v.
Proof.
  intros Hu. rewrite rotate_q2r, Hu.
  destruct (matvec3 (q2r r) v) as [[w1 w2] w3], v as [[v1 v2] v3].
  unfold vadd, vscale. vec3_ring.
Qed.

Lemma Quaternion_smul_1 (q : Quaternion) : Quaternion_smul 1 q = q.
Proof. destruct q. quat_ring. Qed.

Lemma norm_of_rigid_motion (k : Class) (r : Quaternion) (t : Vec3) :
  is_unit r ->
  DualQuaternion_norm
    (mkDualQuaternion k (Some r) (Some (dual_of_translation t r)))
  = Ok (1, 0).
Proof.
  intros Hu. unfold DualQuaternion_norm. cbn [real dual deref bind].
  rewrite Quaternion_mul_conj_s, Hu, base_sqrt_1. cbn [bind].
  rewrite dual_scalar_vanishes, base_sqrt_0. reflexivity.
Qed.

(** ** The norm *)

Lemma DualQuaternion_norm_pair (k : Class) (r d : Quaternion) :
  DualQuaternion_norm (mkDualQuaternion k (Some r) (Some d))
  = (n1 <- base_sqrt
             (Quaternion_s
                (Quaternion_add (Quaternion_mul r (Quaternion_conj d))
                                (Quaternion_mul d (Quaternion_conj r)))) ;;
     Ok (sqrt (Quaternion_s (Quaternion_mul r (Quaternion_conj r))), n1)).
Proof.
  unfold DualQuaternion_norm. cbn [real dual deref bind].
  rewrite base_sqrt_nonneg.
  - reflexivity.
  - rewrite Quaternion_mul_conj_s. apply Quaternion_norm2_nonneg.
Qed.

(** C6, at the dual quaternion with real part [(1, 0, 0, 0)] and dual part
    [(-1, 0, 0, 0)]: the second scalar part is [-2], and [norm()] raises
    [ValueError] where a pair is due. *)
Theorem norm_raises_on_negative_scalar :
  let d := mkDualQuaternion ClsDualQuaternion
             (Some (mkQuaternion 1 0 0 0)) (Some (mkQuaternion (-1) 0 0 0)) in
  DualQuaternion_norm d = Raise ValueError
  /\ forall n, DualQuaternion_norm d <> Ok n.
Proof.
  intros d.
  assert (H : DualQuaternion_norm d = Raise ValueError).
  { unfold d. rewrite DualQuaternion_norm_pair.
    rewrite base_sqrt_neg; [reflexivity |]. quat_unfold. lra. }
  split; [exact H |]. intros n. rewrite H. discriminate.
Qed.

(** ** Transforming a point *)

(** X1. With an array or a list on the right, [__mul__] on an initialised
    dual quaternion stops at its second assertion with [AttributeError]: the
    operand has no attribute [dual] (a list has no [real] either), so the
    point-transform branch is never reached. *)
Theorem mul_vector_raises (k : Class) (r d : Quaternion) (v : list R) :
  DualQuaternion_mul (mkDualQuaternion k (Some r) (Some d)) (OpArray v)
  = Raise AttributeError
  /\ DualQuaternion_mul (mkDualQuaternion k (Some r) (Some d)) (OpSequence v)
     = Raise AttributeError.
Proof. split; reflexivity. Qed.

(** The sandwich product of the point-transform branch rotates the point
    and drops the translation. *)
Lemma mul_point_rotates (k : Class) (r : Quaternion) (t : Vec3)
      (v1 v2 v3 : R) :
  mul_point (mkDualQuaternion k (Some r) (Some (dual_of_translation t r)))
            [v1; v2; v3]
  = Ok (rotate r (v1, v2, v3)).
Proof.
  unfold mul_point, DualQuaternion_Pure.
  cbn [getvector3 bind]. rewrite DualQuaternion_init_pair. cbn [bind].
  rewrite times_pair. cbn [bind].
  rewrite DualQuaternion_conj_pair. cbn [bind].
  rewrite times_pair. cbn [bind dual deref]. f_equal.
  destruct t as [[t1 t2] t3]. quat_unfold. vec3_ring.
Qed.

(** X2. On the unit dual quaternion of a pose [T], the body of the
    point-transform branch computes [T.R @ v]: the translation cancels in the
    sandwich product with [conj]. *)
Theorem mul_point_of_pose (r2q : Mat3 -> Quaternion) (T : SE3) (v1 v2 v3 : R) :
  is_unit (r2q (SE3_R T)) -> q2r (r2q (SE3_R T)) = SE3_R T ->
  exists d,
    UnitDualQuaternion_init r2q (PySE3 T) PyNone = Ok d
    /\ mul_point d [v1; v2; v3] = Ok (matvec3 (SE3_R T) (v1, v2, v3)).
Proof.
  intros Hu Hr. eexists. split; [apply UnitDualQuaternion_init_pose |].
  rewrite mul_point_rotates, rotate_unit by exact Hu. now rewrite Hr.
Qed.

Lemma mul_point_of_pose_witness :
  let r2q := fun _ : Mat3 => UnitQuaternion_identity in
  let T := mkSE3 I3 (1, 2, 3) in
  is_unit (r2q (SE3_R T)) /\ q2r (r2q (SE3_R T)) = SE3_R T
  /\ exists d,
      UnitDualQuaternion_init r2q (PySE3 T) PyNone = Ok d
      /\ mul_point d [4; 5; 6] = Ok (matvec3 (SE3_R T) (4, 5, 6)).
Proof.
  intros r2q T.
  assert (Hunit : is_unit (r2q (SE3_R T))).
  { unfold is_unit, r2q. quat_unfold. ring. }
  assert (Hrot : q2r (r2q (SE3_R T)) = SE3_R T).
  { unfold q2r, r2q, T. simpl. unfold I3. repeat f_equal; ring. }
  split; [exact Hunit | split; [exact Hrot |]].
  exact (mul_point_of_pose r2q T 4 5 6 Hunit Hrot).
Defined.

(** C2, at the pose [T] with [R = I], [t = (1, 0, 0)] and the point
    [v = (0, 0, 0)], where [T.R @ v + T.t = (1, 0, 0)]: [d * v] raises
    [AttributeError], for an array as for a list, and the sandwich product
    of the point-transform branch, [d * Pure(v) * conj(d)], has the dual
    vector part [(0, 0, 0)]. *)
Theorem point_transform_at_origin (r2q : Mat3 -> Quaternion) :
  let T := mkSE3 I3 (1, 0, 0) in
  exists d,
    UnitDualQuaternion_init r2q (PySE3 T) PyNone = Ok d
    /\ DualQuaternion_mul d (OpArray [0; 0; 0]) = Raise AttributeError
    /\ DualQuaternion_mul d (OpSequence [0; 0; 0]) = Raise AttributeError
    /\ mul_point d [0; 0; 0] = Ok (0, 0, 0)
    /\ vadd (matvec3 (SE3_R T) (0, 0, 0)) (SE3_t T) = (1, 0, 0).
Proof.
  intros T. eexists. split; [apply UnitDualQuaternion_init_pose |].
  split; [reflexivity |]. split; [reflexivity |]. split.
  - rewrite mul_point_rotates. f_equal. quat_unfold. vec3_ring.
  - unfold T, I3. quat_unfold. vec3_ring.
Qed.

(** ** Further constructors *)

(** X4. The identity pose: when [UnitQuaternion] of the identity matrix is
    the identity quaternion, the unit dual quaternion of the identity pose
    has [real = (1, 0, 0, 0)] and [dual = (0, 0, 0, 0)], and [SE3()] gives the
    identity pose back. *)
Theorem identity_pose (r2q : Mat3 -> Quaternion)
        (Hid : r2q I3 = UnitQuaternion_identity) :
  exists d,
    UnitDualQuaternion_init r2q (PySE3 (mkSE3 I3 (0, 0, 0))) PyNone = Ok d
    /\ real d = Some (mkQuaternion 1 0 0 0)
    /\ dual d = Some (mkQuaternion 0 0 0 0)
    /\ UnitDualQuaternion_SE3 d = Ok (mkSE3 I3 (0, 0, 0)).
Proof.
  eexists. split; [apply UnitDualQuaternion_init_pose |].
  cbn [real dual SE3_R SE3_t]. rewrite Hid.
  assert (Hd : dual_of_translation (0, 0, 0) UnitQuaternion_identity
               = mkQuaternion 0 0 0 0) by quat_ring.
  rewrite Hd. split; [reflexivity |]. split; [reflexivity |].
  unfold UnitDualQuaternion_SE3, rt2tr. cbn [real dual deref bind]. f_equal.
  unfold q2r, I3. quat_unfold.
  apply (f_equal2 mkSE3).
  - apply (f_equal2 (@pair (Vec3 * Vec3) Vec3));
      [apply (f_equal2 (@pair Vec3 Vec3)) |]; vec3_ring.
  - vec3_ring.
Qed.

Lemma identity_pose_witness :
  (fun _ : Mat3 => UnitQuaternion_identity) I3 = UnitQuaternion_identity
  /\ exists d,
      UnitDualQuaternion_init (fun _ => UnitQuaternion_identity)
        (PySE3 (mkSE3 I3 (0, 0, 0))) PyNone = Ok d
      /\ real d = Some (mkQuaternion 1 0 0 0)
      /\ dual d = Some (mkQuaternion 0 0 0 0)
      /\ UnitDualQuaternion_SE3 d = Ok (mkSE3 I3 (0, 0, 0)).
Proof.
  split; [reflexivity |].
  exact (identity_pose (fun _ => UnitQuaternion_identity) eq_refl).
Defined.

(** ** The interpolating spline *)

Lemma increasing_sorted (ts : list R) :
  increasing ts = true -> StronglySorted Rlt ts.
Proof.
  intros H. apply Sorted_StronglySorted.
  { intros a b c. apply Rlt_trans. }
  induction ts as [| t0 ts IH]; [constructor |].
  destruct ts as [| t1 ts]; [repeat constructor |].
  change (increasing (t0 :: t1 :: ts))
    with (if Rlt_dec t0 t1 then increasing (t1 :: ts) else false) in H.
  destruct (Rlt_dec t0 t1) as [Hlt | _]; [| discriminate].
  constructor; [apply IH; exact H | constructor; exact Hlt].
Qed.

Lemma sorted_head_lt_nth (a : R) (l : list R) (j : nat) :
  StronglySorted Rlt (a :: l) -> (j < length l)%nat -> a < nth j l 0.
Proof.
  intros Hs Hj. apply StronglySorted_inv in Hs. destruct Hs as [_ Hall].
  rewrite Forall_forall in Hall. apply Hall. apply nth_In. exact Hj.
Qed.

Lemma last_in (l : list R) (d : R) : l <> [] -> In (last l d) l.
Proof.
  induction l as [| a l IH]; [congruence |]. intros _.
  destruct l as [| b l]; [left; reflexivity |].
  right. apply IH. discriminate.
Qed.

Lemma sorted_map (f : R -> R) (l : list R) :
  (forall a b, a < b -> f a < f b) ->
  StronglySorted Rlt l -> StronglySorted Rlt (map f l).
Proof.
  intros Hf Hs. induction Hs as [| a l Hs IH Hall]; [constructor |].
  cbn [map]. constructor; [exact IH |].
  rewrite Forall_forall in *. intros y Hy.
  apply in_map_iff in Hy. destruct Hy as [x [<- Hx]]. apply Hf, Hall, Hx.
Qed.

Lemma normalize_sorted (ts : list R) :
  StronglySorted Rlt ts -> (2 <= length ts)%nat ->
  StronglySorted Rlt (normalize ts).
Proof.
  intros Hs Hlen. destruct ts as [| a [| b l]]; cbn [length] in Hlen; try lia.
  assert (Hspan : a < last (a :: b :: l) 0).
  { change (last (a :: b :: l) 0) with (last (b :: l) 0).
    apply StronglySorted_inv in Hs. destruct Hs as [_ Hall].
    rewrite Forall_forall in Hall. apply Hall, last_in. discriminate. }
  unfold normalize. cbn [hd]. apply sorted_map; [| exact Hs].
  intros x y Hxy. unfold Rdiv. apply Rmult_lt_compat_r.
  - apply Rinv_0_lt_compat. lra.
  - lra.
Qed.

Ltac mat3_ring :=
  apply (f_equal2 (@pair (Vec3 * Vec3) Vec3));
    [apply (f_equal2 (@pair Vec3 Vec3)) |]; vec3_ring.

Lemma slerp_start (q0 q1 : Quaternion) : slerp q0 q1 0 = q0.
Proof.
  unfold slerp.
  generalize (if Rlt_dec (Quaternion_dot q0 q1) 0
              then Quaternion_smul (-1) q1 else q1).
  intros q1'.
  destruct (Req_dec_T (sin (acos (Rabs (Quaternion_dot q0 q1)))) 0)
    as [_ | Hsin].
  - destruct q0, q1'. quat_ring.
  - replace ((1 - 0) * acos (Rabs (Quaternion_dot q0 q1)))
      with (acos (Rabs (Quaternion_dot q0 q1))) by ring.
    replace (0 * acos (Rabs (Quaternion_dot q0 q1))) with 0 by ring.
    rewrite sin_0. destruct q0, q1'. quat_unfold. f_equal; field; exact Hsin.
Qed.

Lemma slerp_end (q0 q1 : Quaternion) :
  slerp q0 q1 1
  = if Rlt_dec (Quaternion_dot q0 q1) 0 then Quaternion_smul (-1) q1 else q1.
Proof.
  unfold slerp.
  generalize (if Rlt_dec (Quaternion_dot q0 q1) 0
              then Quaternion_smul (-1) q1 else q1).
  intros q1'.
  destruct (Req_dec_T (sin (acos (Rabs (Quaternion_dot q0 q1)))) 0)
    as [_ | Hsin].
  - destruct q0, q1'. quat_ring.
  - replace ((1 - 1) * acos (Rabs (Quaternion_dot q0 q1))) with 0 by ring.
    replace (1 * acos (Rabs (Quaternion_dot q0 q1)))
      with (acos (Rabs (Quaternion_dot q0 q1))) by ring.
    rewrite sin_0. destruct q0, q1'. quat_unfold. f_equal; field; exact Hsin.
Qed.

(** A quaternion and its negative are the same rotation. *)
Lemma q2r_neg (q : Quaternion) : q2r (Quaternion_smul (-1) q) = q2r q.
Proof. destruct q. quat_unfold. mat3_ring. Qed.

Lemma hermite3_start (h : R) (p0 m0 p1 m1 : Vec3) :
  hermite3 0 h p0 m0 p1 m1 = p0.
Proof.
  destruct p0 as [[? ?] ?], m0 as [[? ?] ?], p1 as [[? ?] ?],
    m1 as [[? ?] ?].
  unfold hermite3, hermite. vec3_ring.
Qed.

Lemma hermite3_end (h : R) (p0 m0 p1 m1 : Vec3) :
  hermite3 1 h p0 m0 p1 m1 = p1.
Proof.
  destruct p0 as [[? ?] ?], m0 as [[? ?] ?], p1 as [[? ?] ?],
    m1 as [[? ?] ?].
  unfold hermite3, hermite. vec3_ring.
Qed.

Section AtTheKnots.

Variable r2q : Mat3 -> Quaternion.
Variable slope : nat -> Vec3.

Lemma segment_start (i : nat) (t0 t1 : R) (w0 w1 : SE3) :
  t0 < t1 -> r2q_contract r2q w0 ->
  segment r2q slope i t0 t1 w0 w1 t0 = w0.
Proof.
  intros Hlt [_ Hrot]. unfold segment.
  replace ((t0 - t0) / (t1 - t0)) with 0 by (field; lra).
  rewrite slerp_start, hermite3_start, Hrot. now destruct w0.
Qed.

Lemma segment_end (i : nat) (t0 t1 : R) (w0 w1 : SE3) :
  t0 < t1 -> r2q_contract r2q w1 ->
  segment r2q slope i t0 t1 w0 w1 t1 = w1.
Proof.
  intros Hlt [_ Hrot]. unfold segment.
  replace ((t1 - t0) / (t1 - t0)) with 1 by (field; lra).
  rewrite slerp_end, hermite3_end.
  destruct (Rlt_dec (Quaternion_dot (r2q (SE3_R w0)) (r2q (SE3_R w1))) 0).
  - rewrite q2r_neg, Hrot. now destruct w1.
  - rewrite Hrot. now destruct w1.
Qed.

Lemma evaluate_from_step (i : nat) (t0 t1 t2 : R) (ts : list R)
      (w0 w1 : SE3) (ws : list SE3) (t : R) :
  evaluate_from r2q slope i (t0 :: t1 :: t2 :: ts) (w0 :: w1 :: ws) t
  = if Rle_dec t t1 then Ok (segment r2q slope i t0 t1 w0 w1 t)
    else evaluate_from r2q slope (S i) (t1 :: t2 :: ts) (w1 :: ws) t.
Proof. reflexivity. Qed.

Lemma evaluate_at_knot (d : SE3) (ts : list R) :
  forall (ws : list SE3) (i j : nat),
    StronglySorted Rlt ts ->
    length ts = length ws ->
    (2 <= length ts)%nat ->
    Forall (r2q_contract r2q) ws ->
    (j < length ts)%nat ->
    evaluate_from r2q slope i ts ws (nth j ts 0) = Ok (nth j ws d).
Proof.
  induction ts as [| t0 ts' IH]; intros ws i j Hs Hlen H2 Hq Hj.
  { cbn [length] in H2. lia. }
  destruct ts' as [| t1 ts'']; [cbn [length] in H2; lia |].
  destruct ws as [| w0 [| w1 ws'']]; try discriminate Hlen.
  assert (H01 : t0 < t1).
  { apply (sorted_head_lt_nth t0 (t1 :: ts'') 0 Hs). cbn [length]. lia. }
  assert (Hq0 : r2q_contract r2q w0) by (inversion Hq; assumption).
  assert (Hq' : Forall (r2q_contract r2q) (w1 :: ws''))
    by (inversion Hq; assumption).
  assert (Hq1 : r2q_contract r2q w1) by (inversion Hq'; assumption).
  destruct ts'' as [| t2 ts3].
  - (* the only segment *)
    cbn [evaluate_from]. destruct j as [| [| j]].
    + cbn [nth]. now rewrite segment_start.
    + cbn [nth]. now rewrite segment_end.
    + cbn [length] in Hj. lia.
  - rewrite evaluate_from_step. destruct j as [| [| j]].
    + cbn [nth].
      destruct (Rle_dec t0 t1) as [_ | Hn]; [| lra].
      now rewrite segment_start.
    + cbn [nth].
      destruct (Rle_dec t1 t1) as [_ | Hn]; [| lra].
      now rewrite segment_end.
    + change (nth (S (S j)) (t0 :: t1 :: t2 :: ts3) 0)
        with (nth (S j) (t1 :: t2 :: ts3) 0).
      change (nth (S (S j)) (w0 :: w1 :: ws'') d)
        with (nth (S j) (w1 :: ws'') d).
      assert (Hs' : StronglySorted Rlt (t1 :: t2 :: ts3)).
      { apply StronglySorted_inv in Hs. apply Hs. }
      assert (Hgt : t1 < nth (S j) (t1 :: t2 :: ts3) 0).
      { change (nth (S j) (t1 :: t2 :: ts3) 0) with (nth j (t2 :: ts3) 0).
        apply (sorted_head_lt_nth t1 (t2 :: ts3) j Hs').
        cbn [length] in *. lia. }
      remember (nth (S j) (t1 :: t2 :: ts3) 0) as t eqn:Et.
      destruct (Rle_dec t t1) as [Hle | _]; [lra |].
      subst t. apply IH.
      * exact Hs'.
      * cbn [length] in *. lia.
      * cbn [length]. lia.
      * exact Hq'.
      * cbn [length] in *. lia.
Qed.

End AtTheKnots.

Lemma sorted_increasing (ts : list R) :
  StronglySorted Rlt ts -> increasing ts = true.
Proof.
  induction ts as [| t0 ts IH]; [reflexivity |]. intros Hs.
  destruct ts as [| t1 ts]; [reflexivity |].
  change (increasing (t0 :: t1 :: ts))
    with (if Rlt_dec t0 t1 then increasing (t1 :: ts) else false).
  destruct (Rlt_dec t0 t1) as [_ | Hn].
  - apply IH. apply StronglySorted_inv in Hs. apply Hs.
  - exfalso. apply Hn.
    apply (sorted_head_lt_nth t0 (t1 :: ts) 0 Hs). cbn [length]. lia.
Qed.

Lemma InterpSplineSE3_init_sorted (times : list R) (waypoints : list SE3)
      (normalize_time : bool) :
  StronglySorted Rlt times ->
  (2 <= length times)%nat ->
  length times = length waypoints ->
  InterpSplineSE3_init times waypoints normalize_time
  = Ok (mkInterpSplineSE3
          (if normalize_time then normalize times else times) waypoints).
Proof.
  intros Hs H2 Hlen. unfold InterpSplineSE3_init.
  rewrite <- Hlen, Nat.eqb_refl. cbn [negb].
  apply Nat.ltb_ge in H2. rewrite H2.
  rewrite sorted_increasing by exact Hs. reflexivity.
Qed.

Lemma vnorm_vsub_self (a : Vec3) : vnorm (vsub a a) = 0.
Proof.
  destruct a as [[a1 a2] a3]. unfold vnorm, vsub, vdot.
  replace ((a1 - a1) * (a1 - a1) + (a2 - a2) * (a2 - a2)
           + (a3 - a3) * (a3 - a3)) with 0 by ring.
  apply sqrt_0.
Qed.

(** C10. Interpolation exactness: from strictly increasing time points, two
    at least, and as many waypoints, the spline is built, and evaluated at
    its [i]-th time point it returns the [i]-th waypoint: the same rotation,
    and a translation at distance zero.  Without [normalize_time] its time
    points are the input time points. *)
Theorem interpolation_exact (r2q : Mat3 -> Quaternion) (slope : nat -> Vec3)
        (times : list R) (waypoints : list SE3) (normalize_time : bool)
        (i : nat) (d : SE3)
        (Hinc : StronglySorted Rlt times)
        (H2 : (2 <= length times)%nat)
        (Hlen : length times = length waypoints)
        (Hq : Forall (r2q_contract r2q) waypoints)
        (Hi : (i < length times)%nat) :
  exists sp,
    InterpSplineSE3_init times waypoints normalize_time = Ok sp
    /\ (normalize_time = false -> timepoints sp = times)
    /\ exists pose,
        InterpSplineSE3_evaluate r2q slope sp (nth i (timepoints sp) 0)
        = Ok pose
        /\ pose = nth i waypoints d
        /\ SE3_R pose = SE3_R (nth i waypoints d)
        /\ vnorm (vsub (SE3_t pose) (SE3_t (nth i waypoints d))) = 0.
Proof.
  eexists. split; [apply InterpSplineSE3_init_sorted; assumption |].
  cbn [timepoints]. split; [intros ->; reflexivity |].
  exists (nth i waypoints d). unfold InterpSplineSE3_evaluate.
  cbn [timepoints control_poses].
  split; [| split; [reflexivity | split;
                    [reflexivity | apply vnorm_vsub_self]]].
  destruct normalize_time.
  - apply evaluate_at_knot; try assumption.
    + apply normalize_sorted; assumption.
    + unfold normalize. now rewrite length_map.
    + unfold normalize. now rewrite length_map.
    + unfold normalize. now rewrite length_map.
  - apply evaluate_at_knot; assumption.
Qed.

Lemma interpolation_exact_witness :
  let r2q := fun _ : Mat3 => UnitQuaternion_identity in
  let slope := fun _ : nat => (0, 0, 0) in
  let times := [0; 1; 3] in
  let waypoints :=
    [mkSE3 I3 (0, 0, 0); mkSE3 I3 (1, 2, 0); mkSE3 I3 (2, 0, 5)] in
  StronglySorted Rlt times
  /\ (2 <= length times)%nat
  /\ length times = length waypoints
  /\ Forall (r2q_contract r2q) waypoints
  /\ (2 < length times)%nat
  /\ exists sp,
      InterpSplineSE3_init times waypoints false = Ok sp
      /\ timepoints sp = times
      /\ InterpSplineSE3_evaluate r2q slope sp 3 = Ok (mkSE3 I3 (2, 0, 5)).
Proof.
  intros r2q slope times waypoints.
  assert (Hinc : StronglySorted Rlt times).
  { unfold times. repeat constructor; lra. }
  assert (H2 : (2 <= length times)%nat) by (cbn; lia).
  assert (Hlen : length times = length waypoints) by reflexivity.
  assert (Hc : forall t, r2q_contract r2q (mkSE3 I3 t)).
  { intros t. split.
    - unfold is_unit, r2q. quat_unfold. ring.
    - unfold r2q. cbn [SE3_R]. unfold I3. quat_unfold. mat3_ring. }
  assert (Hq : Forall (r2q_contract r2q) waypoints).
  { unfold waypoints. repeat constructor; apply Hc. }
  assert (Hi : (2 < length times)%nat) by (cbn; lia).
  do 5 (split; [assumption |]).
  destruct (interpolation_exact r2q slope times waypoints false 2
              (mkSE3 I3 (0, 0, 0)) Hinc H2 Hlen Hq Hi)
    as [sp [Hbuilt [Ht [pose [Hev [Hp _]]]]]].
  exists sp. split; [exact Hbuilt |]. split; [exact (Ht eq_refl) |].
  subst pose. rewrite (Ht eq_refl) in Hev. exact Hev.
Defined.

(** ** Laws of the operations *)

Lemma Quaternion_eta (q : Quaternion) :
  mkQuaternion (q_s q) (q_x q) (q_y q) (q_z q) = q.
Proof. now destruct q. Qed.

(** X5. [vec] and the constructor on an 8-vector are inverse to each other:
    [d.vec] has eight components and [DualQuaternion(d.vec)] has the real and
    dual part of [d]; [DualQuaternion(v).vec] is [v] for every 8-vector. *)
Theorem vec_round_trip :
  (forall k r d,
      exists v,
        DualQuaternion_vec (mkDualQuaternion k (Some r) (Some d)) = Ok v
        /\ length v = 8%nat
        /\ DualQuaternion_new (PyVector v) PyNone
           = Ok (mkDualQuaternion ClsDualQuaternion (Some r) (Some d)))
  /\ (forall k v,
      length v = 8%nat ->
      exists d,
        DualQuaternion_init k (PyVector v) PyNone = Ok d
        /\ klass d = k
        /\ DualQuaternion_vec d = Ok v).
Proof.
  split.
  - intros k r d. eexists. split; [reflexivity |]. split; [reflexivity |].
    unfold DualQuaternion_new, DualQuaternion_init, Quaternion_vec.
    cbn. now rewrite !Quaternion_eta.
  - intros k v Hlen.
    do 8 (destruct v as [| ? v]; [discriminate Hlen |]).
    destruct v; [| discriminate Hlen].
    eexists. split; [reflexivity |]. split; reflexivity.
Qed.

Lemma vec_round_trip_witness :
  length [1; 2; 3; 4; 5; 6; 7; 8] = 8%nat
  /\ exists d,
      DualQuaternion_init ClsDualQuaternion
        (PyVector [1; 2; 3; 4; 5; 6; 7; 8]) PyNone = Ok d
      /\ klass d = ClsDualQuaternion
      /\ DualQuaternion_vec d = Ok [1; 2; 3; 4; 5; 6; 7; 8].
Proof.
  split; [reflexivity |].
  exact (proj2 vec_round_trip ClsDualQuaternion [1; 2; 3; 4; 5; 6; 7; 8]
           eq_refl).
Defined.

(** X8. Conjugation reverses products: [conj(a * b)] is
    [conj(b) * conj(a)]. *)
Theorem conj_times (ka kb : Class) (ra da rb db : Quaternion) :
  let a := mkDualQuaternion ka (Some ra) (Some da) in
  let b := mkDualQuaternion kb (Some rb) (Some db) in
  (ab <- times a b ;; DualQuaternion_conj ab)
  = (cb <- DualQuaternion_conj b ;; ca <- DualQuaternion_conj a ;;
     times cb ca).
Proof.
  intros a b. unfold a, b. rewrite times_pair. cbn [bind].
  rewrite !DualQuaternion_conj_pair. cbn [bind]. rewrite times_pair.
  f_equal. f_equal; f_equal; quat_ring.
Qed.

(** X9. The sum is commutative, failures included, and subtracting then
    adding the same dual quaternion restores the real and the dual part;
    both return a plain [DualQuaternion]. *)
Theorem add_sub_laws :
  (forall a b, DualQuaternion_add a b = DualQuaternion_add b a)
  /\ (forall ka kb ra da rb db,
      (x <- DualQuaternion_sub (mkDualQuaternion ka (Some ra) (Some da))
                               (mkDualQuaternion kb (Some rb) (Some db)) ;;
       DualQuaternion_add x (mkDualQuaternion kb (Some rb) (Some db)))
      = Ok (mkDualQuaternion ClsDualQuaternion (Some ra) (Some da)))
  /\ (forall ka kb ra da rb db,
      (x <- DualQuaternion_add (mkDualQuaternion ka (Some ra) (Some da))
                               (mkDualQuaternion kb (Some rb) (Some db)) ;;
       DualQuaternion_sub x (mkDualQuaternion kb (Some rb) (Some db)))
      = Ok (mkDualQuaternion ClsDualQuaternion (Some ra) (Some da))).
Proof.
  split; [| split].
  - intros [ka [ra |] [da |]] [kb [rb |] [db |]]; try reflexivity.
    rewrite !DualQuaternion_add_pair. f_equal. f_equal; f_equal; quat_ring.
  - intros. rewrite DualQuaternion_sub_pair. cbn [bind].
    rewrite DualQuaternion_add_pair. f_equal.
    f_equal; f_equal; destruct ra, da; quat_ring.
  - intros. rewrite DualQuaternion_add_pair. cbn [bind].
    rewrite DualQuaternion_sub_pair. f_equal.
    f_equal; f_equal; destruct ra, da; quat_ring.
Qed.

(** X10. [Pure([0, 0, 0])] is a two-sided unit of the product: [d * Pure(0)]
    is [d], and [Pure(0) * d] has the parts of [d] and the class [Pure] was
    called on. *)
Theorem Pure_zero_is_unit (cls k : Class) (r d : Quaternion) :
  (e <- DualQuaternion_Pure cls (PyVector [0; 0; 0]) ;;
   times (mkDualQuaternion k (Some r) (Some d)) e)
  = Ok (mkDualQuaternion k (Some r) (Some d))
  /\ (e <- DualQuaternion_Pure cls (PyVector [0; 0; 0]) ;;
      times e (mkDualQuaternion k (Some r) (Some d)))
     = Ok (mkDualQuaternion cls (Some r) (Some d)).
Proof.
  unfold DualQuaternion_Pure. cbn [getvector3 bind].
  rewrite DualQuaternion_init_pair. cbn [bind]. rewrite !times_pair.
  split; f_equal; f_equal; f_equal; destruct r, d; quat_ring.
Qed.

Ltac list_ring :=
  repeat (apply (f_equal2 (@cons R)); [field |]); reflexivity.

(** ** More on the norm *)

Lemma DualQuaternion_norm_scalar (k : Class) (r d : Quaternion) :
  DualQuaternion_norm (mkDualQuaternion k (Some r) (Some d))
  = (n1 <- base_sqrt (dual_scalar r d) ;;
     Ok (sqrt (Quaternion_norm2 r), n1)).
Proof.
  rewrite DualQuaternion_norm_pair, Quaternion_mul_conj_s. reflexivity.
Qed.

Lemma Quaternion_norm2_conj (q : Quaternion) :
  Quaternion_norm2 (Quaternion_conj q) = Quaternion_norm2 q.
Proof. quat_unfold. ring. Qed.

Lemma dual_scalar_conj (r d : Quaternion) :
  dual_scalar (Quaternion_conj r) (Quaternion_conj d) = dual_scalar r d.
Proof. unfold dual_scalar. quat_unfold. ring. Qed.

(** X12. [norm()] does not tell a dual quaternion from its conjugate:
    [conj(d).norm()] is [d.norm()], the same pair or the same
    [ValueError]. *)
Theorem norm_of_conj (k : Class) (r d : Quaternion) :
  (c <- DualQuaternion_conj (mkDualQuaternion k (Some r) (Some d)) ;;
   DualQuaternion_norm c)
  = DualQuaternion_norm (mkDualQuaternion k (Some r) (Some d)).
Proof.
  rewrite DualQuaternion_conj_pair. cbn [bind].
  rewrite !DualQuaternion_norm_scalar.
  now rewrite dual_scalar_conj, Quaternion_norm2_conj.
Qed.

(** ** Rigid motions: inverse and composition *)

Lemma q2r_conj (q : Quaternion) :
  q2r (Quaternion_conj q) = transpose3 (q2r q).
Proof. unfold transpose3. quat_unfold. mat3_ring. Qed.

Lemma is_unit_conj (q : Quaternion) : is_unit q -> is_unit (Quaternion_conj q).
Proof. unfold is_unit. now rewrite Quaternion_norm2_conj. Qed.

(** The conjugate of the dual part of a rigid motion is the dual part of the
    inverse motion, up to the squared length. *)
Lemma conj_dual_of_translation (t : Vec3) (r : Quaternion) :
  dual_of_translation (vscale (-1) (rotate (Quaternion_conj r) t))
                      (Quaternion_conj r)
  = Quaternion_smul (Quaternion_norm2 r)
      (Quaternion_conj (dual_of_translation t r)).
Proof. destruct t as [[t1 t2] t3]. quat_ring. Qed.

(** X15. The conjugate of a rigid motion is its inverse: [d * conj(d)] and
    [conj(d) * d] have real part [(1, 0, 0, 0)] and dual part [(0, 0, 0, 0)],
    and [conj(d)] satisfies the rigid-motion invariant itself, although it is
    returned as a plain [DualQuaternion]. *)
Theorem conj_is_inverse (k : Class) (r : Quaternion) (t : Vec3)
        (Hu : is_unit r) :
  let d := mkDualQuaternion k (Some r) (Some (dual_of_translation t r)) in
  (c <- DualQuaternion_conj d ;; times d c)
  = Ok (mkDualQuaternion k (Some (mkQuaternion 1 0 0 0))
                           (Some (mkQuaternion 0 0 0 0)))
  /\ (c <- DualQuaternion_conj d ;; times c d)
     = Ok (mkDualQuaternion ClsDualQuaternion
             (Some (mkQuaternion 1 0 0 0)) (Some (mkQuaternion 0 0 0 0)))
  /\ exists c,
      DualQuaternion_conj d = Ok c
      /\ klass c = ClsDualQuaternion
      /\ rigid_motion c.
Proof.
  intros d. unfold d. rewrite DualQuaternion_conj_pair. cbn [bind].
  rewrite !times_pair.
  assert (Hn : q_s r * q_s r + q_x r * q_x r + q_y r * q_y r + q_z r * q_z r
               = 1) by exact Hu.
  split; [| split].
  - f_equal. f_equal; f_equal.
    + quat_unfold. f_equal; [lra | ring | ring | ring].
    + destruct t as [[t1 t2] t3]. quat_ring.
  - f_equal. f_equal; f_equal.
    + quat_unfold. f_equal; [lra | ring | ring | ring].
    + destruct t as [[t1 t2] t3]. quat_ring.
  - eexists. split; [reflexivity |]. split; [reflexivity |].
    exists (Quaternion_conj r),
      (vscale (-1) (rotate (Quaternion_conj r) t)).
    cbn [real dual]. split; [reflexivity |].
    split; [apply is_unit_conj, Hu |].
    rewrite conj_dual_of_translation, Hu, Quaternion_smul_1. reflexivity.
Qed.

Lemma conj_is_inverse_witness :
  let r := mkQuaternion 0 1 0 0 in
  let d := mkDualQuaternion ClsUnitDualQuaternion (Some r)
             (Some (dual_of_translation (1, 2, 3) r)) in
  is_unit r
  /\ (c <- DualQuaternion_conj d ;; times d c)
     = Ok (mkDualQuaternion ClsUnitDualQuaternion
             (Some (mkQuaternion 1 0 0 0)) (Some (mkQuaternion 0 0 0 0))).
Proof.
  intros r d.
  assert (Hu : is_unit r) by (unfold is_unit, r; quat_unfold; ring).
  split; [exact Hu |].
  exact (proj1 (conj_is_inverse ClsUnitDualQuaternion r (1, 2, 3) Hu)).
Defined.

(** X16. Conjugation inverts the pose: for the unit dual quaternion [d] of a
    pose [T], the unit dual quaternion with the parts of [conj(d)] converts
    to the inverse pose, rotation [R^T] and translation [- R^T t]. *)
Theorem conj_is_inverse_pose (r2q : Mat3 -> Quaternion) (T : SE3)
        (Hc : r2q_contract r2q T) :
  exists d c rc dc,
    UnitDualQuaternion_init r2q (PySE3 T) PyNone = Ok d
    /\ DualQuaternion_conj d = Ok c
    /\ real c = Some rc /\ dual c = Some dc
    /\ (u <- UnitDualQuaternion_new rc dc ;; UnitDualQuaternion_SE3 u)
       = Ok (SE3_inv T).
Proof.
  destruct Hc as [Hu Hrot]. do 4 eexists.
  split; [apply UnitDualQuaternion_init_pose |].
  split; [apply DualQuaternion_conj_pair |].
  split; [reflexivity |]. split; [reflexivity |].
  unfold UnitDualQuaternion_new. rewrite DualQuaternion_init_pair.
  cbn [bind]. unfold UnitDualQuaternion_SE3, rt2tr, SE3_inv.
  cbn [real dual deref bind]. f_equal.
  rewrite q2r_conj, Hrot.
  assert (Hd : Quaternion_conj
                 (dual_of_translation (SE3_t T) (r2q (SE3_R T)))
               = dual_of_translation
                   (vscale (-1)
                      (rotate (Quaternion_conj (r2q (SE3_R T))) (SE3_t T)))
                   (Quaternion_conj (r2q (SE3_R T)))).
  { rewrite conj_dual_of_translation, Hu, Quaternion_smul_1. reflexivity. }
  rewrite Hd, translation_recovered.
  rewrite Quaternion_v_smul_Pure
    by (rewrite Quaternion_norm2_conj; exact Hu).
  rewrite rotate_unit by (apply is_unit_conj, Hu).
  now rewrite q2r_conj, Hrot.
Qed.

Lemma conj_is_inverse_pose_witness :
  let r2q := fun _ : Mat3 => UnitQuaternion_identity in
  let T := mkSE3 I3 (1, 2, 3) in
  r2q_contract r2q T
  /\ exists d c rc dc,
      UnitDualQuaternion_init r2q (PySE3 T) PyNone = Ok d
      /\ DualQuaternion_conj d = Ok c
      /\ real c = Some rc /\ dual c = Some dc
      /\ (u <- UnitDualQuaternion_new rc dc ;; UnitDualQuaternion_SE3 u)
         = Ok (SE3_inv T).
Proof.
  intros r2q T.
  assert (Hc : r2q_contract r2q T).
  { split.
    - unfold is_unit, r2q. quat_unfold. ring.
    - unfold r2q, T. cbn [SE3_R]. unfold I3. quat_unfold. mat3_ring. }
  split; [exact Hc |].
  exact (conj_is_inverse_pose r2q T Hc).
Defined.

(** X18. [Pure(v)] is a rigid motion, the translation by [2 v] with no
    rotation: its norm is [(1, 0)], and called on [UnitDualQuaternion] its
    [SE3()] is the pose with the identity matrix and the translation
    [2 v]. *)
Theorem Pure_is_translation (v1 v2 v3 : R) :
  (forall cls,
      (p <- DualQuaternion_Pure cls (PyVector [v1; v2; v3]) ;;
       DualQuaternion_norm p) = Ok (1, 0))
  /\ (p <- DualQuaternion_Pure ClsUnitDualQuaternion
             (PyVector [v1; v2; v3]) ;;
      UnitDualQuaternion_SE3 p)
     = Ok (mkSE3 I3 (2 * v1, 2 * v2, 2 * v3)).
Proof.
  unfold DualQuaternion_Pure. cbn [getvector3 bind]. split.
  - intros cls. rewrite DualQuaternion_init_pair. cbn [bind].
    replace (Quaternion_Pure (v1, v2, v3))
      with (dual_of_translation (2 * v1, 2 * v2, 2 * v3)
              UnitQuaternion_identity) by quat_ring.
    apply norm_of_rigid_motion. unfold is_unit. quat_unfold. ring.
  - rewrite DualQuaternion_init_pair. cbn [bind].
    unfold UnitDualQuaternion_SE3, rt2tr. cbn [real dual deref bind].
    f_equal. unfold I3. quat_unfold.
    apply (f_equal2 mkSE3); [mat3_ring | vec3_ring].
Qed.

(** ** The constructor of unit dual quaternions *)

(** X19. [UnitDualQuaternion.__init__] checks the types of its arguments
    and never the unit invariant: any two quaternions are accepted as they
    are, also when they are no rigid motion; an 8-vector alone is split and
    tagged as unit; no argument gives the empty instance, on which [SE3()]
    raises [AttributeError]; a pose together with a dual part, or a pose in
    the place of the dual part, raises [ValueError]. *)
Theorem UnitDualQuaternion_init_cases (r2q : Mat3 -> Quaternion) :
  (forall r d,
      UnitDualQuaternion_init r2q (PyQuaternion r) (PyQuaternion d)
      = Ok (mkDualQuaternion ClsUnitDualQuaternion (Some r) (Some d)))
  /\ (exists r d u,
      UnitDualQuaternion_init r2q (PyQuaternion r) (PyQuaternion d) = Ok u
      /\ ~ rigid_motion u)
  /\ (forall a0 a1 a2 a3 a4 a5 a6 a7,
      UnitDualQuaternion_init r2q
        (PyVector [a0; a1; a2; a3; a4; a5; a6; a7]) PyNone
      = Ok (mkDualQuaternion ClsUnitDualQuaternion
              (Some (mkQuaternion a0 a1 a2 a3))
              (Some (mkQuaternion a4 a5 a6 a7))))
  /\ UnitDualQuaternion_init r2q PyNone PyNone
     = Ok (empty ClsUnitDualQuaternion)
  /\ UnitDualQuaternion_SE3 (empty ClsUnitDualQuaternion)
     = Raise AttributeError
  /\ (forall T q,
      UnitDualQuaternion_init r2q (PySE3 T) (PyQuaternion q)
      = Raise ValueError)
  /\ (forall T,
      UnitDualQuaternion_init r2q PyNone (PySE3 T) = Raise ValueError).
Proof.
  split; [reflexivity |]. split.
  - exists (mkQuaternion 2 0 0 0), (mkQuaternion 0 0 0 0). eexists.
    split; [reflexivity |].
    intros [r [t [Hr [Hu _]]]]. cbn [real] in Hr. inversion Hr. subst r.
    unfold is_unit in Hu. quat_unfold. lra.
  - repeat split.
Qed.

(** ** Products of unit dual quaternions of poses *)

Lemma half_turn_x_is_pose_rotation :
  is_unit half_turn_x /\ q2r half_turn_x = SE3_R half_turn_pose.
Proof.
  split.
  - unfold is_unit, half_turn_x. quat_unfold. ring.
  - unfold half_turn_x, half_turn_pose. quat_unfold. mat3_ring.
Qed.

Lemma UnitQuaternion_mul_half_turn :
  UnitQuaternion_mul half_turn_x half_turn_x = mkQuaternion 1 0 0 0.
Proof.
  unfold UnitQuaternion_mul, half_turn_x. quat_unfold.
  destruct (Rlt_dec (0 * 0 - 1 * 1 - 0 * 0 - 0 * 0) 0) as [_ | Hn];
    [| exfalso; lra].
  f_equal; ring.
Qed.

Lemma times_unit_real_half_turn :
  times_unit_real half_turn_dq half_turn_dq
  = Ok (mkDualQuaternion ClsUnitDualQuaternion
          (Some (mkQuaternion 1 0 0 0)) (Some (mkQuaternion 0 (-1) 0 0))).
Proof.
  unfold times_unit_real, mul_asserts, assert_initialized, half_turn_dq.
  cbn [real dual is_not_None andb assert bind right_real_is_not_None
       right_dual_is_not_None].
  unfold mul_product_unit_real.
  cbn [real dual attr deref bind isinstance_UnitDualQuaternion klass andb].
  unfold UnitDualQuaternion_new. rewrite DualQuaternion_init_pair.
  rewrite UnitQuaternion_mul_half_turn.
  f_equal. f_equal. f_equal. unfold half_turn_x. quat_ring.
Qed.

(** C3, at [a = b = UnitDualQuaternion(T)] for the pose [T] with the half
    turn about x and [t = (1, 0, 0)], whose real part is the
    [UnitQuaternion] [(0, 1, 0, 0)]: [real_a * real_b] is [(-1, 0, 0, 0)],
    but the real part of [a * b] is [(1, 0, 0, 0)] while its dual part is
    [real_a * dual_b + dual_a * real_b = (0, -1, 0, 0)] unchanged, so [a * b]
    converts to the translation [(-2, 0, 0)] where [T * T] has [(2, 0, 0)]. *)
Theorem unit_product_negates_real_part :
  exists c,
    times_unit_real half_turn_dq half_turn_dq = Ok c
    /\ klass c = ClsUnitDualQuaternion
    /\ Quaternion_mul half_turn_x half_turn_x = mkQuaternion (-1) 0 0 0
    /\ real c = Some (mkQuaternion 1 0 0 0)
    /\ dual c = Some (mkQuaternion 0 (-1) 0 0)
    /\ UnitDualQuaternion_SE3 c = Ok (mkSE3 I3 (-2, 0, 0))
    /\ SE3_mul half_turn_pose half_turn_pose = mkSE3 I3 (2, 0, 0).
Proof.
  eexists. split; [apply times_unit_real_half_turn |].
  split; [reflexivity |]. split.
  { unfold half_turn_x. quat_ring. }
  split; [reflexivity |]. split; [reflexivity |]. split.
  - unfold UnitDualQuaternion_SE3, rt2tr. cbn [real dual deref bind].
    f_equal. unfold I3. quat_unfold.
    apply (f_equal2 mkSE3); [mat3_ring | vec3_ring].
  - unfold SE3_mul, half_turn_pose, matmul3, I3. cbn [SE3_R SE3_t].
    quat_unfold. apply (f_equal2 mkSE3); [mat3_ring | vec3_ring].
Qed.

(** C4, at the same [d = UnitDualQuaternion(T)]: [d.matrix() @ d.vec] is
    [[-1, 0, 0, 0, 0, -1, 0, 0]] and [(d * d).vec] is
    [[1, 0, 0, 0, 0, -1, 0, 0]]. *)
Theorem matrix_differs_from_product :
  exists M v c w,
    DualQuaternion_matrix half_turn_dq = Ok M
    /\ DualQuaternion_vec half_turn_dq = Ok v
    /\ matvec M v = [-1; 0; 0; 0; 0; -1; 0; 0]
    /\ times_unit_real half_turn_dq half_turn_dq = Ok c
    /\ DualQuaternion_vec c = Ok w
    /\ w = [1; 0; 0; 0; 0; -1; 0; 0]
    /\ matvec M v <> w.
Proof.
  do 4 eexists.
  split; [reflexivity |]. split; [reflexivity |].
  assert (Hmv :
    matvec
      (np_block (Quaternion_matrix half_turn_x) (np_zeros 4 4)
         (Quaternion_matrix (dual_of_translation (1, 0, 0) half_turn_x))
         (Quaternion_matrix half_turn_x))
      (Quaternion_vec half_turn_x
       ++ Quaternion_vec (dual_of_translation (1, 0, 0) half_turn_x))
    = [-1; 0; 0; 0; 0; -1; 0; 0]).
  { unfold matvec, dot, np_block, hstack, np_zeros, Quaternion_matrix,
      Quaternion_vec, half_turn_x. quat_unfold. cbn. list_ring. }
  split; [exact Hmv |].
  split; [apply times_unit_real_half_turn |].
  split; [reflexivity |]. split; [reflexivity |].
  rewrite Hmv. intros H. inversion H. lra.
Qed.

(** ** Rounding in [norm] *)

(** In binary64, on the unit dual quaternion of the pose with the unit
    quaternion [(0.5, 0.5, 0.5, 0.5)] and the translation [(1, 0.1, 0.3)],
    the second scalar part of [norm()] rounds below zero and [math.sqrt]
    raises [ValueError]; the same holds for the product of the unit dual
    quaternion of the identity pose with it. *)
Lemma norm_raises_on_rounding :
  let r := Binary64.mkQuaternion 0.5 0.5 0.5 0.5 in
  let d := Binary64.dual_of_translation (1, 0x1.999999999999ap-4, 0x1.3333333333333p-2)%float r in
  let one := Binary64.mkQuaternion 1 0 0 0 in
  let zero := Binary64.dual_of_translation (0, 0, 0)%float one in
  Binary64.norm r d = Raise ValueError
  /\ (let '(r', d') := Binary64.product (one, zero) (r, d) in
      Binary64.norm r' d') = Raise ValueError.
Proof. vm_compute. split; reflexivity. Qed.
